(** * compute_sales.py: total sales cost from a price catalogue and a sales record

    A shallow embedding of [src/ComputeSales/compute_sales.py] and the
    properties of its loader, catalogue indexer, aggregator and entry point.

    Python values that [json.load] can produce are the type [value]; floats
    are IEEE 754 binary64 numbers, taken from the Standard Library's
    executable specification [SpecFloat]; console output and exceptions are
    threaded through a small writer/error monad [M]. *)

From Stdlib Require Import ZArith Ascii Floats.SpecFloat.
From stdpp Require Import gmap strings list fin_maps pretty.

Set Warnings "-register-all".
Local Open Scope Z_scope.

(** ** Python values *)

(** What [json.load] returns: [None], [bool], [int] (unbounded), [float],
    [str], [list] and [dict] with string keys. *)
Inductive value :=
  | VNone
  | VBool (b : bool)
  | VInt (z : Z)
  | VFloat (f : spec_float)
  | VStr (s : string)
  | VList (l : list value)
  | VDict (d : gmap string value).

(** Exceptions the program can meet. [SystemExit] is raised by [sys.exit]. *)
Inductive exn :=
  | AttributeError
  | TypeError
  | KeyError
  | OverflowError
  | FileNotFoundError
  | JSONDecodeError
  | PermissionError
  | IsADirectoryError
  | UnicodeDecodeError
  | SystemExit (code : Z).

Inductive result (A : Type) :=
  | Ok (a : A)
  | Raise (e : exn).
Arguments Ok {A} a.
Arguments Raise {A} e.

(** ** Console lines *)

(** An f-string is kept as its template: literal text and interpolated
    values ([Interp v] stands for [str(v)]). *)
Inductive frag :=
  | Lit (s : string)
  | Interp (v : value).

Definition line : Type := list frag.

(** What a run leaves behind: lines on the console and files written. *)
Inductive event :=
  | Printed (l : line)
  | Written (path : string) (text : list line).

(** ** The monad: the events so far, and a value or a raised exception *)

Definition M (A : Type) : Type := (list event * result A)%type.

Definition ret {A} (a : A) : M A := ([], Ok a).

Definition bind {A B} (k : A -> M B) (m : M A) : M B :=
  match m with
  | (out, Ok a) => let '(out', r) := k a in (out ++ out', r)
  | (out, Raise e) => (out, Raise e)
  end.

#[global] Instance M_ret : MRet M := @ret.
#[global] Instance M_bind : MBind M := @bind.

Definition raise {A} (e : exn) : M A := ([], Raise e).

Definition print (l : line) : M unit := ([Printed l], Ok tt).

Definition output {A} (m : M A) : list event := fst m.
Definition outcome {A} (m : M A) : result A := snd m.

(** [for x in l: s = body(s, x)], the loop state passed along. *)
Fixpoint foldM {A S} (body : S -> A -> M S) (l : list A) (s : S) : M S :=
  match l with
  | [] => ret s
  | x :: rest => s' ← body s x; foldM body rest s'
  end.

(** ** Numbers *)

Definition prec : Z := 53.
Definition emax : Z := 1024.

Definition fzero : spec_float := S754_zero false.
Definition fadd : spec_float -> spec_float -> spec_float := SFadd prec emax.
Definition fmul : spec_float -> spec_float -> spec_float := SFmul prec emax.
Definition fsub : spec_float -> spec_float -> spec_float := SFsub prec emax.

(** The integer [z] rounded to the nearest double, ties to even. *)
Definition float_of_Z (z : Z) : spec_float :=
  binary_normalize prec emax z 0 false.

(** [float(z)] for an [int]: [OverflowError] when the rounded value does not
    fit a double. *)
Definition float_of_int (z : Z) : M spec_float :=
  match float_of_Z z with
  | S754_infinity _ => raise OverflowError
  | f => ret f
  end.

(** [isinstance(v, (int, float))]; [bool] is a subclass of [int]. *)
Definition is_int_or_float (v : value) : bool :=
  match v with VBool _ | VInt _ | VFloat _ => true | _ => false end.

(** A number as arithmetic sees it: [True] is 1 and [False] is 0. *)
Inductive num :=
  | NInt (z : Z)
  | NFloat (f : spec_float).

Definition as_num (v : value) : option num :=
  match v with
  | VBool b => Some (NInt (Z.b2z b))
  | VInt z => Some (NInt z)
  | VFloat f => Some (NFloat f)
  | _ => None
  end.

(** [a * b] on numbers. The operands the program multiplies have passed
    [isinstance(_, (int, float))]; other operands do not occur and are
    answered with [TypeError]. *)
Definition py_mul (a b : value) : M num :=
  match as_num a, as_num b with
  | Some (NInt x), Some (NInt y) => ret (NInt (x * y))
  | Some (NInt x), Some (NFloat g) => f ← float_of_int x; ret (NFloat (fmul f g))
  | Some (NFloat f), Some (NInt y) => g ← float_of_int y; ret (NFloat (fmul f g))
  | Some (NFloat f), Some (NFloat g) => ret (NFloat (fmul f g))
  | _, _ => raise TypeError
  end.

(** [total += x] for a float [total]. *)
Definition py_iadd (total : spec_float) (x : num) : M spec_float :=
  match x with
  | NInt z => f ← float_of_int z; ret (fadd total f)
  | NFloat f => ret (fadd total f)
  end.

(** [v < 0] on a number; a NaN is not less than anything. *)
Definition py_lt0 (v : value) : M bool :=
  match as_num v with
  | Some (NInt z) => ret (z <? 0)
  | Some (NFloat f) => ret (SFltb f fzero)
  | None => raise TypeError
  end.

(** ** Dictionaries *)

(** [item.get(key)]: only a [dict] has the method; a missing key gives [None]. *)
Definition py_get (item : value) (key : string) : M value :=
  match item with
  | VDict d => ret (default VNone (d !! key))
  | _ => raise AttributeError
  end.

(** [key in d] for a dict with string keys: lists and dicts are unhashable,
    every other non-string value hashes and is equal to no string. *)
Definition py_in (key : value) (d : gmap string value) : M bool :=
  match key with
  | VStr s => ret (bool_decide (is_Some (d !! s)))
  | VList _ | VDict _ => raise TypeError
  | _ => ret false
  end.

(** [d[key]]: [KeyError] for a key that is not in [d]. *)
Definition py_getitem (d : gmap string value) (key : value) : M value :=
  match key with
  | VStr s => match d !! s with Some v => ret v | None => raise KeyError end
  | VList _ | VDict _ => raise TypeError
  | _ => raise KeyError
  end.

(** ** The catalogue indexer *)

Definition warn_invalid_entry (item : value) : line :=
  [Lit "Warning: Invalid product entry "; Interp item; Lit ". Skipping."].

(** One turn of the loop of [convert_catalogue_to_dict]. *)
Definition convert_body (catalogue_dict : gmap string value) (item : value)
  : M (gmap string value) :=
  product ← py_get item "title";
  price ← py_get item "price";
  match product with
  | VStr title =>
      if is_int_or_float price
      then ret (<[title := price]> catalogue_dict)
      else print (warn_invalid_entry item);; ret catalogue_dict
  | _ => print (warn_invalid_entry item);; ret catalogue_dict
  end.

Definition convert_catalogue_to_dict (price_catalogue : list value)
  : M (gmap string value) :=
  foldM convert_body price_catalogue ∅.

(** ** The aggregator *)

Definition warn_not_found (product : value) : line :=
  [Lit "Warning: '"; Interp product; Lit "' not found in catalogue. Skipping."].

Definition warn_invalid_quantity (product : value) : line :=
  [Lit "Warning: Invalid quantity for '"; Interp product; Lit "'. Skipping."].

(** [not isinstance(quantity, (int, float)) or quantity < 0]: the comparison
    is evaluated for numbers only. *)
Definition invalid_quantity (quantity : value) : M bool :=
  if negb (is_int_or_float quantity) then ret true else py_lt0 quantity.

(** Lines 102 to 110: the two checks and the accumulation; [continue]
    leaves the running total as it is. *)
Definition sale_checks (price_catalogue_dict : gmap string value)
    (total_cost : spec_float) (product quantity : value) : M spec_float :=
  known ← py_in product price_catalogue_dict;
  if negb known then
    print (warn_not_found product);; ret total_cost
  else
    invalid ← invalid_quantity quantity;
    if (invalid : bool) then
      print (warn_invalid_quantity product);; ret total_cost
    else
      price ← py_getitem price_catalogue_dict product;
      amount ← py_mul price quantity;
      py_iadd total_cost amount.

(** One turn of the loop of [compute_total_sales]: the index is built again
    for every sale. *)
Definition sale_body (price_catalogue : list value) (total_cost : spec_float)
    (sale : value) : M spec_float :=
  product ← py_get sale "Product";
  quantity ← py_get sale "Quantity";
  price_catalogue_dict ← convert_catalogue_to_dict price_catalogue;
  sale_checks price_catalogue_dict total_cost product quantity.

Definition compute_total_sales (price_catalogue sales_record : list value)
  : M spec_float :=
  foldM (sale_body price_catalogue) sales_record fzero.

(** ** Formatting of floats *)

(** [n / d] rounded to the nearest integer, ties to even ([0 <= n], [0 < d]). *)
Definition div_half_even (n d : Z) : Z :=
  let q := n / d in
  match (2 * (n mod d)) ?= d with
  | Lt => q
  | Eq => if Z.even q then q else q + 1
  | Gt => q + 1
  end.

(** The hundredths of [m * 2^e], correctly rounded. *)
Definition hundredths (m : positive) (e : Z) : Z :=
  match e with
  | Zneg p => div_half_even (Zpos m * 100) (2 ^ Zpos p)
  | _ => Zpos m * 100 * 2 ^ e
  end.

(** Commas between groups of three digits, on the digits in reverse. *)
Fixpoint group3 (rev_digits : list ascii) : list ascii :=
  match rev_digits with
  | a :: b :: c :: ((_ :: _) as rest) => a :: b :: c :: ","%char :: group3 rest
  | _ => rev_digits
  end.

Definition with_commas (digits : string) : string :=
  String.string_of_list_ascii
    (reverse (group3 (reverse (String.list_ascii_of_string digits)))).

Definition two_digits (n : Z) : string :=
  if n <? 10 then "0" +:+ pretty n else pretty n.

Definition sign_text (s : bool) : string := if s then "-" else "".

(** [format(x, ',.2f')] when [grouping], [format(x, '.2f')] otherwise. *)
Definition format_2f (grouping : bool) (x : spec_float) : string :=
  match x with
  | S754_nan => "nan"
  | S754_infinity s => sign_text s +:+ "inf"
  | S754_zero s => sign_text s +:+ "0.00"
  | S754_finite s m e =>
      let h := hundredths m e in
      let units := pretty (h / 100) in
      sign_text s +:+ (if grouping then with_commas units else units)
        +:+ "." +:+ two_digits (h mod 100)
  end.

(** ** The world of a run *)

(** What [open] followed by [json.load] does for a path: the parsed value, or
    an exception with its message. *)
Inductive read_outcome :=
  | Loaded (v : value)
  | Failed (e : exn) (msg : string).

Record world := {
  argv : list string;
  read_file : string -> read_outcome;
  writable : string -> bool;
  time_start : spec_float;
  time_end : spec_float
}.

(** ** The loader *)

Definition error_loading (filename msg : string) : line :=
  [Lit "Error loading "; Interp (VStr filename); Lit ": "; Lit msg].

(** [except (FileNotFoundError, json.JSONDecodeError)] *)
Definition caught (e : exn) : bool :=
  match e with
  | FileNotFoundError | JSONDecodeError => true
  | _ => false
  end.

Definition load_json_file (w : world) (filename : string) : M value :=
  match read_file w filename with
  | Loaded v => ret v
  | Failed e msg =>
      if caught e
      then print (error_loading filename msg);; ret (VDict ∅)
      else raise e
  end.

(** ** The reporter and the entry point *)

Definition report_total (total_cost : spec_float) : line :=
  [Lit "Total Sales Cost: $"; Lit (format_2f true total_cost)].

Definition report_time (elapsed_time : spec_float) : line :=
  [Lit "Execution Time: "; Lit (format_2f false elapsed_time); Lit " seconds"].

Definition save_results (w : world) (filename : string)
    (total_cost elapsed_time : spec_float) : M unit :=
  if writable w filename
  then ([Written filename [report_total total_cost; report_time elapsed_time]],
        Ok tt)
  else raise PermissionError.

Definition usage : line :=
  [Lit "Usage: python computeSales.py priceCatalogue.json salesRecord.json"].

Definition invalid_format : line := [Lit "Error: Invalid file format."].

(** [isinstance(v, list)] *)
Definition is_list (v : value) : bool :=
  match v with VList _ => true | _ => false end.

Definition main (w : world) : M unit :=
  match argv w with
  | [_; price_catalogue_file; sales_record_file] =>
      price_catalogue ← load_json_file w price_catalogue_file;
      sales_record ← load_json_file w sales_record_file;
      match price_catalogue, sales_record with
      | VList price_catalogue, VList sales_record =>
          total_cost ← compute_total_sales price_catalogue sales_record;
          let elapsed_time := fsub (time_end w) (time_start w) in
          print (report_total total_cost);;
          print (report_time elapsed_time);;
          save_results w "SalesResults.txt" total_cost elapsed_time
      | _, _ => print invalid_format;; raise (SystemExit 1)
      end
  | _ => print usage;; raise (SystemExit 1)
  end.

(** The exit status of the process: 0 on a normal return, the code of
    [sys.exit], 1 on an uncaught exception. *)
Definition exit_status (m : M unit) : Z :=
  match outcome m with
  | Ok _ => 0
  | Raise (SystemExit code) => code
  | Raise _ => 1
  end.

Definition files_written (out : list event) : list (string * list line) :=
  omap (fun ev => match ev with Written p t => Some (p, t) | _ => None end) out.

(** ** Records of the example files *)

Definition entry (title : string) (price : value) : value :=
  VDict (<["title" := VStr title]> (<["price" := price]> ∅)).

Definition sale_of (product : string) (quantity : value) : value :=
  VDict (<["Product" := VStr product]> (<["Quantity" := quantity]> ∅)).

(** ** The variant that builds the index once *)

(** The loop of [compute_total_sales] with the call of
    [convert_catalogue_to_dict] moved in front of it. *)
Definition sale_body_once (price_catalogue_dict : gmap string value)
    (total_cost : spec_float) (sale : value) : M spec_float :=
  product ← py_get sale "Product";
  quantity ← py_get sale "Quantity";
  sale_checks price_catalogue_dict total_cost product quantity.

Definition compute_total_sales_once (price_catalogue sales_record : list value)
  : M spec_float :=
  price_catalogue_dict ← convert_catalogue_to_dict price_catalogue;
  foldM (sale_body_once price_catalogue_dict) sales_record fzero.

(** ** What the specification calls things *)

Definition is_dict (v : value) : bool :=
  match v with VDict _ => true | _ => false end.

(** A field of a record, [None] when it is absent. *)
Definition field (key : string) (item : value) : value :=
  match item with
  | VDict d => default VNone (d !! key)
  | _ => VNone
  end.

(** A Product Entry: a record with a string title and a numeric price. *)
Definition entry_of (item : value) : option (string * value) :=
  match field "title" item with
  | VStr title =>
      if is_int_or_float (field "price" item)
      then Some (title, field "price" item)
      else None
  | _ => None
  end.

(** The Catalogue Index of a catalogue, entry after entry. *)
Definition index_step (d : gmap string value) (item : value)
  : gmap string value :=
  match entry_of item with
  | Some (title, price) => <[title := price]> d
  | None => d
  end.

Definition index_of (price_catalogue : list value) : gmap string value :=
  foldl index_step ∅ price_catalogue.

(** The warnings of the indexer, one for each record that is no entry. *)
Definition entry_warnings (price_catalogue : list value) : list event :=
  flat_map (fun item => match entry_of item with
                        | Some _ => []
                        | None => [Printed (warn_invalid_entry item)]
                        end) price_catalogue.

(** A value that can be hashed, so that [in] can look it up in a dict. *)
Definition hashable (v : value) : bool :=
  match v with VList _ | VDict _ => false | _ => true end.

(** [product] is a key of the index. *)
Definition is_key (product : value) (idx : gmap string value) : bool :=
  match product with
  | VStr s => bool_decide (is_Some (idx !! s))
  | _ => false
  end.

(** The price the index has for [product]. *)
Definition price_of (idx : gmap string value) (product : value) : value :=
  match product with
  | VStr s => default VNone (idx !! s)
  | _ => VNone
  end.

(** A negative number. *)
Definition negative (v : value) : bool :=
  match as_num v with
  | Some (NInt z) => z <? 0
  | Some (NFloat f) => SFltb f fzero
  | None => false
  end.

(** A Sale Record is accepted when its Product is a key of the index and its
    Quantity is numeric and not negative. *)
Definition accepted (idx : gmap string value) (sale : value) : bool :=
  is_key (field "Product" sale) idx
  && is_int_or_float (field "Quantity" sale)
  && negb (negative (field "Quantity" sale)).

(** Unit price times quantity, as numbers: two integers multiply exactly, an
    integer next to a float is rounded to a float first. *)
Definition num_float (x : num) : spec_float :=
  match x with
  | NInt z => float_of_Z z
  | NFloat f => f
  end.

Definition num_mul (a b : num) : num :=
  match a, b with
  | NInt x, NInt y => NInt (x * y)
  | _, _ => NFloat (fmul (num_float a) (num_float b))
  end.

Definition amount (idx : gmap string value) (sale : value) : num :=
  match as_num (price_of idx (field "Product" sale)),
        as_num (field "Quantity" sale) with
  | Some price, Some quantity => num_mul price quantity
  | _, _ => NInt 0
  end.

(** The running total after an accepted sale. *)
Definition add_sale (idx : gmap string value) (total : spec_float)
    (sale : value) : spec_float :=
  fadd total (num_float (amount idx sale)).


(** An integer that [float] can convert. *)
Definition fits (z : Z) : bool :=
  match float_of_Z z with
  | S754_infinity _ => false
  | _ => true
  end.

(** No integer of the amount of a sale is too large for a float. *)
Definition amount_fits (idx : gmap string value) (sale : value) : bool :=
  match as_num (price_of idx (field "Product" sale)),
        as_num (field "Quantity" sale) with
  | Some (NInt x), Some (NInt y) => fits (x * y)
  | Some (NInt x), Some (NFloat _) => fits x
  | Some (NFloat _), Some (NInt y) => fits y
  | _, _ => true
  end.

(** A sale the loop gets through: a record whose Product can be hashed and
    whose amount, when it is accepted, [float] can convert. *)
Definition sale_ok (idx : gmap string value) (sale : value) : bool :=
  is_dict sale
  && hashable (field "Product" sale)
  && (if accepted idx sale then amount_fits idx sale else true).

(** The sign of a float that is no NaN. *)
Definition has_sign (s : bool) (f : spec_float) : Prop :=
  match f with
  | S754_zero s' | S754_infinity s' | S754_finite s' _ _ => s' = s
  | S754_nan => False
  end.



(** The prices of an index are numbers. *)
Definition numeric_index (idx : gmap string value) : Prop :=
  forall t p, idx !! t = Some p -> is_int_or_float p = true.




(** A run with two arguments in which no file can be read or written: the
    catalogue is missing, the sales file has a syntax error, every other path
    is denied. *)
Definition closed_world : world := {|
  argv := ["computeSales.py"; "catalogue.json"; "sales.json"];
  read_file := fun path =>
    if String.eqb path "catalogue.json"
    then Failed FileNotFoundError
           "[Errno 2] No such file or directory: 'catalogue.json'"
    else if String.eqb path "sales.json"
    then Failed JSONDecodeError "Expecting value: line 1 column 1 (char 0)"
    else Failed PermissionError "[Errno 13] Permission denied";
  writable := fun _ => false;
  time_start := fzero;
  time_end := fzero
|}.

(** A run on a catalogue of two entries and an empty sales file that took a
    quarter of a second. *)
Definition quiet_world : world := {|
  argv := ["computeSales.py"; "catalogue.json"; "sales.json"];
  read_file := fun path =>
    if String.eqb path "catalogue.json"
    then Loaded (VList [entry "A" (VInt 10); entry "B" (VInt 5)])
    else if String.eqb path "sales.json"
    then Loaded (VList [])
    else Failed FileNotFoundError "[Errno 2] No such file or directory";
  writable := fun _ => true;
  time_start := S754_finite false 1 0;
  time_end := S754_finite false 5 (-2)
|}.

(** A record that is a valid Product Entry. *)
Definition is_entry (item : value) : bool :=
  match entry_of item with Some _ => true | None => false end.

(** The line a turn of the loop prints about a sale: none for an accepted
    sale, the invalid-quantity warning for a known product, the not-found
    warning otherwise. *)
Definition sale_warning (idx : gmap string value) (sale : value) : list event :=
  if accepted idx sale then []
  else if is_key (field "Product" sale) idx
       then [Printed (warn_invalid_quantity (field "Product" sale))]
       else [Printed (warn_not_found (field "Product" sale))].

(** A computation that writes no file. *)
Definition prints_only {A} (m : M A) : Prop := files_written (output m) = [].

(** The run of the specification's example. *)
Definition example_world : world := {|
  argv := ["computeSales.py"; "catalogue.json"; "sales.json"];
  read_file := fun path =>
    if String.eqb path "catalogue.json"
    then Loaded (VList [entry "A" (VInt 10); entry "B" (VInt 5)])
    else if String.eqb path "sales.json"
    then Loaded (VList [sale_of "A" (VInt 2); sale_of "C" (VInt 1);
                        sale_of "B" (VInt (-1))])
    else Failed FileNotFoundError "[Errno 2] No such file or directory";
  writable := fun _ => true;
  time_start := S754_finite false 1 0;
  time_end := S754_finite false 5 (-2)
|}.

(** * Properties *)

(** ** The monad and the loops *)

Lemma bind_ret {A B} (a : A) (k : A -> M B) : (ret a ≫= k) = k a.
Proof. unfold mbind, M_bind, bind, ret. destruct (k a); reflexivity. Qed.

Lemma bind_ok {A B} (out : list event) (a : A) (k : A -> M B) :
  ((out, Ok a) ≫= k) = (out ++ output (k a), outcome (k a)).
Proof. unfold mbind, M_bind, bind, output, outcome. destruct (k a); reflexivity. Qed.

Lemma bind_assoc {A B C} (m : M A) (k : A -> M B) (h : B -> M C) :
  ((m ≫= k) ≫= h) = (m ≫= fun a => k a ≫= h).
Proof.
  unfold mbind, M_bind, bind.
  destruct m as [out [a|e]]; [|reflexivity].
  destruct (k a) as [out1 [b|e]]; [|reflexivity].
  destruct (h b) as [out2 r]. by rewrite app_assoc.
Qed.

Lemma bind_ext {A B} (m : M A) (k k' : A -> M B) :
  (forall a, k a = k' a) -> (m ≫= k) = (m ≫= k').
Proof.
  intros Hk. unfold mbind, M_bind, bind.
  destruct m as [out [a|e]]; [|reflexivity]. by rewrite Hk.
Qed.

Lemma foldM_cons {A S} (body : S -> A -> M S) (x : A) (l : list A) (s : S) :
  foldM body (x :: l) s = (body s x ≫= foldM body l).
Proof. reflexivity. Qed.

Lemma foldM_app {A S} (body : S -> A -> M S) (l1 l2 : list A) (s : S) :
  foldM body (l1 ++ l2) s = (foldM body l1 s ≫= foldM body l2).
Proof.
  revert s. induction l1 as [|x l1 IH]; intros s.
  - symmetry. apply bind_ret.
  - rewrite <- app_comm_cons, !foldM_cons, bind_assoc.
    apply bind_ext. intros s'. apply IH.
Qed.

Lemma outcome_bind {A B} (m : M A) (k : A -> M B) :
  outcome (m ≫= k) =
    match outcome m with
    | Ok a => outcome (k a)
    | Raise e => Raise e
    end.
Proof.
  unfold mbind, M_bind, bind, outcome.
  destruct m as [out [a|e]]; simpl; [|reflexivity]. by destruct (k a).
Qed.

Lemma output_bind {A B} (m : M A) (k : A -> M B) :
  output (m ≫= k) =
    match outcome m with
    | Ok a => output m ++ output (k a)
    | Raise e => output m
    end.
Proof.
  unfold mbind, M_bind, bind, outcome, output.
  destruct m as [out [a|e]]; simpl; [|reflexivity]. by destruct (k a).
Qed.

Lemma foldM_ext {A S} (body body' : S -> A -> M S) (l : list A) (s : S) :
  (forall s x, body s x = body' s x) -> foldM body l s = foldM body' l s.
Proof.
  intros Hb. revert s. induction l as [|x l IH]; intros s; [reflexivity|].
  rewrite !foldM_cons, Hb. by apply bind_ext.
Qed.

Lemma foldM_outcome_ext {A S} (body body' : S -> A -> M S) (l : list A) (s : S) :
  (forall s x, outcome (body s x) = outcome (body' s x)) ->
  outcome (foldM body l s) = outcome (foldM body' l s).
Proof.
  intros Hb. revert s. induction l as [|x l IH]; intros s; [reflexivity|].
  rewrite !foldM_cons, !outcome_bind, Hb.
  destruct (outcome (body' s x)); [apply IH | reflexivity].
Qed.

(** ** The catalogue indexer *)

Lemma convert_body_dict (d : gmap string value) (item : value) :
  is_dict item = true ->
  convert_body d item =
    (match entry_of item with
     | Some _ => []
     | None => [Printed (warn_invalid_entry item)]
     end, Ok (index_step d item)).
Proof.
  destruct item as [| | | | |l|fields]; try discriminate. intros _.
  unfold convert_body, index_step, entry_of, field, py_get.
  rewrite !bind_ret.
  destruct (default VNone (fields !! "title")); try reflexivity.
  destruct (is_int_or_float (default VNone (fields !! "price"))); reflexivity.
Qed.

Lemma convert_body_not_dict (d : gmap string value) (item : value) :
  is_dict item = false -> convert_body d item = raise AttributeError.
Proof. destruct item; try discriminate; reflexivity. Qed.

Lemma convert_loop_dicts (cat : list value) (d : gmap string value) :
  forallb is_dict cat = true ->
  foldM convert_body cat d = (entry_warnings cat, Ok (foldl index_step d cat)).
Proof.
  revert d. induction cat as [|item cat IH]; intros d Hcat; [reflexivity|].
  simpl in Hcat. apply andb_prop in Hcat as [Hitem Hcat].
  rewrite foldM_cons, (convert_body_dict _ _ Hitem), bind_ok, (IH _ Hcat).
  reflexivity.
Qed.

Lemma convert_catalogue_to_dict_dicts (cat : list value) :
  forallb is_dict cat = true ->
  convert_catalogue_to_dict cat = (entry_warnings cat, Ok (index_of cat)).
Proof. apply convert_loop_dicts. Qed.

(** A catalogue of entries only is indexed without a warning. *)
Lemma entry_warnings_entries (cat : list value) :
  forallb (fun item => bool_decide (is_Some (entry_of item))) cat = true ->
  entry_warnings cat = [].
Proof.
  induction cat as [|item cat IH]; [reflexivity|]. simpl.
  intros [Hitem Hcat]%andb_prop. rewrite (IH Hcat).
  apply bool_decide_eq_true in Hitem as [x ->]. reflexivity.
Qed.

Lemma index_step_other (l : list value) (d : gmap string value) (t : string) :
  (forall item p, item ∈ l -> entry_of item <> Some (t, p)) ->
  foldl index_step d l !! t = d !! t.
Proof.
  revert d. induction l as [|item l IH]; intros d Hl; [reflexivity|].
  simpl. rewrite IH.
  - unfold index_step. destruct (entry_of item) as [[t' p]|] eqn:E; [|reflexivity].
    apply lookup_insert_ne. intros ->. apply (Hl item p); [left | exact E].
  - intros item' p Hin. apply Hl. by right.
Qed.

Lemma index_last_wins (l1 l3 : list value) (e : value) (d : gmap string value)
    (t : string) (p : value) :
  entry_of e = Some (t, p) ->
  (forall item q, item ∈ l3 -> entry_of item <> Some (t, q)) ->
  foldl index_step d (l1 ++ e :: l3) !! t = Some p.
Proof.
  intros He Hl3. rewrite foldl_app. simpl.
  rewrite (index_step_other _ _ _ Hl3). unfold index_step at 1. rewrite He.
  apply lookup_insert_eq.
Qed.

Lemma convert_loop_ok_dicts (cat : list value) (d idx : gmap string value) :
  outcome (foldM convert_body cat d) = Ok idx -> forallb is_dict cat = true.
Proof.
  revert d. induction cat as [|item cat IH]; intros d; [reflexivity|].
  rewrite foldM_cons, outcome_bind. simpl.
  destruct (is_dict item) eqn:Hitem.
  - rewrite (convert_body_dict _ _ Hitem). simpl. apply IH.
  - rewrite (convert_body_not_dict _ _ Hitem). discriminate.
Qed.

Lemma convert_catalogue_to_dict_ok (cat : list value) (idx : gmap string value) :
  outcome (convert_catalogue_to_dict cat) = Ok idx ->
  forallb is_dict cat = true /\ idx = index_of cat.
Proof.
  intros Hidx. pose proof (convert_loop_ok_dicts _ _ _ Hidx) as Hcat.
  split; [exact Hcat|].
  rewrite (convert_catalogue_to_dict_dicts _ Hcat) in Hidx. simpl in Hidx.
  congruence.
Qed.

Lemma entry_of_numeric (item : value) (t : string) (p : value) :
  entry_of item = Some (t, p) -> is_int_or_float p = true.
Proof.
  unfold entry_of. destruct (field "title" item); try discriminate.
  destruct (is_int_or_float (field "price" item)) eqn:E; [|discriminate].
  by intros [= _ <-].
Qed.

(** Every binding of the index comes from an entry of the catalogue. *)
Lemma index_step_origin (cat : list value) (d : gmap string value)
    (t : string) (p : value) :
  foldl index_step d cat !! t = Some p ->
  d !! t = Some p \/ exists item, item ∈ cat /\ entry_of item = Some (t, p).
Proof.
  revert d. induction cat as [|item cat IH]; intros d; simpl; [by left|].
  intros [H|(item' & Hin & He)]%IH.
  - unfold index_step in H.
    destruct (entry_of item) as [[t' p']|] eqn:E; [|by left].
    destruct (decide (t' = t)) as [->|Hne].
    + rewrite lookup_insert_eq in H. injection H as ->.
      right. exists item. split; [left | exact E].
    + rewrite lookup_insert_ne in H by exact Hne. by left.
  - right. exists item'. split; [by right | exact He].
Qed.

Lemma index_of_origin (cat : list value) (t : string) (p : value) :
  index_of cat !! t = Some p ->
  exists item, item ∈ cat /\ entry_of item = Some (t, p).
Proof.
  intros [H|H]%index_step_origin; [|exact H].
  by rewrite lookup_empty in H.
Qed.

(** C4: in a catalogue with two (or more) valid entries of the same title,
    the index that [convert_catalogue_to_dict] returns maps the title to the
    price of the last of them in input order; and it returns one when every
    element of the catalogue is a record. *)
Theorem convert_catalogue_to_dict_last_wins
    (l1 l2 l3 : list value) (e1 e2 : value) (t : string) (p1 p2 : value) :
  entry_of e1 = Some (t, p1) ->
  entry_of e2 = Some (t, p2) ->
  (forall item q, item ∈ l3 -> entry_of item <> Some (t, q)) ->
  (forall idx,
     outcome (convert_catalogue_to_dict (l1 ++ e1 :: l2 ++ e2 :: l3)) = Ok idx ->
     idx !! t = Some p2) /\
  (forallb is_dict (l1 ++ e1 :: l2 ++ e2 :: l3) = true ->
   exists idx,
     outcome (convert_catalogue_to_dict (l1 ++ e1 :: l2 ++ e2 :: l3)) = Ok idx /\
     idx !! t = Some p2).
Proof.
  intros _ He2 Hl3.
  assert (Hlast : index_of (l1 ++ e1 :: l2 ++ e2 :: l3) !! t = Some p2).
  { unfold index_of.
    replace (l1 ++ e1 :: l2 ++ e2 :: l3) with ((l1 ++ e1 :: l2) ++ e2 :: l3)
      by (by rewrite <- app_assoc).
    by apply index_last_wins. }
  split.
  - intros idx Hidx. by destruct (convert_catalogue_to_dict_ok _ _ Hidx) as [_ ->].
  - intros Hcat. rewrite (convert_catalogue_to_dict_dicts _ Hcat).
    eexists; split; [reflexivity | exact Hlast].
Qed.

Lemma convert_catalogue_to_dict_last_wins_witness :
  (<["C" := VInt 1]> (<["A" := VInt 7]> (<["B" := VInt 5]> ∅))
     : gmap string value) !! "A" = Some (VInt 7) /\
  exists idx,
    outcome (convert_catalogue_to_dict
               ([entry "B" (VInt 5)] ++ entry "A" (VInt 10)
                 :: [VDict ∅] ++ entry "A" (VInt 7) :: [entry "C" (VInt 1)]))
      = Ok idx /\
    idx !! "A" = Some (VInt 7).
Proof.
  destruct (convert_catalogue_to_dict_last_wins
              [entry "B" (VInt 5)] [VDict ∅] [entry "C" (VInt 1)]
              (entry "A" (VInt 10)) (entry "A" (VInt 7)) "A" (VInt 10) (VInt 7))
    as [Hreturned Hreturns].
  - reflexivity.
  - reflexivity.
  - intros item q Hin. apply list_elem_of_singleton in Hin as ->.
    vm_compute. discriminate.
  - split.
    + apply Hreturned. reflexivity.
    + apply Hreturns. reflexivity.
Defined.

(** ** Building the index once *)

(** With the index at hand, a turn of the loop is a turn of the variant's
    loop behind the indexer's warnings. *)
Lemma sale_body_indexed (cat : list value) (out : list event)
    (idx : gmap string value) (total : spec_float) (sale : value) :
  convert_catalogue_to_dict cat = (out, Ok idx) ->
  outcome (sale_body cat total sale) = outcome (sale_body_once idx total sale) /\
  output (sale_body cat total sale) =
    (if is_dict sale then out else []) ++ output (sale_body_once idx total sale).
Proof.
  intros Hidx. unfold sale_body, sale_body_once. rewrite Hidx.
  destruct sale; try (split; reflexivity).
  unfold py_get. rewrite !bind_ret, bind_ok. split; reflexivity.
Qed.

Lemma sale_body_quiet_index (cat : list value) (idx : gmap string value)
    (total : spec_float) (sale : value) :
  convert_catalogue_to_dict cat = ([], Ok idx) ->
  sale_body cat total sale = sale_body_once idx total sale.
Proof.
  intros Hidx. destruct (sale_body_indexed cat [] idx total sale Hidx) as [H1 H2].
  destruct (is_dict sale); simpl in H2;
    destruct (sale_body cat total sale), (sale_body_once idx total sale);
    simpl in *; congruence.
Qed.

(** C8, as amended: for a catalogue of records, the variant that builds the
    index once and [compute_total_sales] end with the same total (or the same
    exception), and when the indexer has nothing to warn about they print the
    same lines as well. *)
Theorem compute_total_sales_once_equiv (cat sales : list value) :
  forallb is_dict cat = true ->
  outcome (compute_total_sales_once cat sales)
    = outcome (compute_total_sales cat sales) /\
  (entry_warnings cat = [] ->
   compute_total_sales_once cat sales = compute_total_sales cat sales).
Proof.
  intros Hcat. pose proof (convert_catalogue_to_dict_dicts cat Hcat) as Hidx.
  unfold compute_total_sales_once, compute_total_sales. split.
  - rewrite outcome_bind, Hidx. simpl. symmetry.
    apply foldM_outcome_ext. intros s x.
    by destruct (sale_body_indexed cat _ _ s x Hidx).
  - intros Hquiet. rewrite Hquiet in Hidx. rewrite Hidx, bind_ok. simpl.
    rewrite (foldM_ext (sale_body cat) (sale_body_once (index_of cat))).
    + by destruct (foldM _ _ _).
    + intros s x. by apply sale_body_quiet_index.
Qed.

Lemma compute_total_sales_once_equiv_witness :
  outcome (compute_total_sales_once
             [entry "A" (VInt 10); entry "B" (VInt 5)]
             [sale_of "A" (VInt 2); sale_of "C" (VInt 1)])
    = outcome (compute_total_sales
                 [entry "A" (VInt 10); entry "B" (VInt 5)]
                 [sale_of "A" (VInt 2); sale_of "C" (VInt 1)]) /\
  compute_total_sales_once
    [entry "A" (VInt 10); entry "B" (VInt 5)]
    [sale_of "A" (VInt 2); sale_of "C" (VInt 1)]
  = compute_total_sales
      [entry "A" (VInt 10); entry "B" (VInt 5)]
      [sale_of "A" (VInt 2); sale_of "C" (VInt 1)].
Proof.
  destruct (compute_total_sales_once_equiv
              [entry "A" (VInt 10); entry "B" (VInt 5)]
              [sale_of "A" (VInt 2); sale_of "C" (VInt 1)]) as [H1 H2].
  - reflexivity.
  - split; [exact H1 | apply H2; reflexivity].
Defined.

(** C8, as stated, fails: with a record in the catalogue that is no valid
    entry, the code warns about it once for every sale and the variant warns
    once; with no sale at all the code does not warn and the variant does. *)
Lemma compute_total_sales_once_differs :
  compute_total_sales [VDict ∅] [sale_of "A" (VInt 1); sale_of "A" (VInt 1)]
    = ([Printed (warn_invalid_entry (VDict ∅));
        Printed (warn_not_found (VStr "A"));
        Printed (warn_invalid_entry (VDict ∅));
        Printed (warn_not_found (VStr "A"))], Ok fzero) /\
  compute_total_sales_once [VDict ∅] [sale_of "A" (VInt 1); sale_of "A" (VInt 1)]
    = ([Printed (warn_invalid_entry (VDict ∅));
        Printed (warn_not_found (VStr "A"));
        Printed (warn_not_found (VStr "A"))], Ok fzero) /\
  compute_total_sales [VDict ∅] [] = ([], Ok fzero) /\
  compute_total_sales_once [VDict ∅] []
    = ([Printed (warn_invalid_entry (VDict ∅))], Ok fzero) /\
  output (compute_total_sales_once [VDict ∅] [])
    <> output (compute_total_sales [VDict ∅] []).
Proof. vm_compute. repeat split. discriminate. Qed.

(** ** Records that are no records *)

Lemma sale_body_not_dict (cat : list value) (total : spec_float) (sale : value) :
  is_dict sale = false -> sale_body cat total sale = raise AttributeError.
Proof. destruct sale; try discriminate; reflexivity. Qed.

(** C2: the claim fails on the code. A sale that is no record (a string, a
    number, a list, [None]) makes [compute_total_sales] raise [AttributeError]
    before anything is printed, and so does a catalogue element that is no
    record as soon as there is one sale; a sale record whose Product is a list
    raises [TypeError], and one whose amount is an integer too large for a
    float raises [OverflowError]. *)
Theorem compute_total_sales_raises :
  (forall (cat rest : list value) (bad good : value),
     is_dict bad = false ->
     is_dict good = true ->
     compute_total_sales cat (bad :: rest) = ([], Raise AttributeError) /\
     compute_total_sales (bad :: cat) (good :: rest)
       = ([], Raise AttributeError)) /\
  compute_total_sales [] [VStr "x"] = ([], Raise AttributeError) /\
  compute_total_sales [VInt 5] [sale_of "A" (VInt 1)]
    = ([], Raise AttributeError) /\
  compute_total_sales [entry "A" (VInt 1)]
    [VDict (<["Product" := VList [VStr "A"]]> (<["Quantity" := VInt 1]> ∅))]
    = ([], Raise TypeError) /\
  compute_total_sales [entry "A" (VInt 1)] [sale_of "A" (VInt (10 ^ 400))]
    = ([], Raise OverflowError).
Proof.
  split.
  - intros cat rest bad good Hbad Hgood.
    unfold compute_total_sales. rewrite !foldM_cons. split.
    + by rewrite (sale_body_not_dict _ _ _ Hbad).
    + destruct good; try discriminate. unfold sale_body, py_get.
      rewrite !bind_ret. unfold convert_catalogue_to_dict.
      rewrite foldM_cons, (convert_body_not_dict _ _ Hbad). reflexivity.
  - vm_compute. repeat split.
Qed.

Lemma compute_total_sales_raises_witness :
  compute_total_sales [] [VInt 7; sale_of "A" (VInt 1)]
    = ([], Raise AttributeError) /\
  compute_total_sales [VInt 7] [sale_of "A" (VInt 1); sale_of "A" (VInt 1)]
    = ([], Raise AttributeError).
Proof.
  apply (proj1 compute_total_sales_raises
           [] [sale_of "A" (VInt 1)] (VInt 7) (sale_of "A" (VInt 1)));
    reflexivity.
Defined.

(** ** One turn of the aggregator's loop *)

Lemma float_of_int_fits (z : Z) :
  fits z = true -> float_of_int z = ret (float_of_Z z).
Proof. unfold fits, float_of_int. by destruct (float_of_Z z). Qed.

Lemma float_of_int_quiet (z : Z) : output (float_of_int z) = [].
Proof. unfold float_of_int. by destruct (float_of_Z z). Qed.

Lemma py_mul_quiet (a b : value) : output (py_mul a b) = [].
Proof.
  unfold py_mul.
  destruct (as_num a) as [[x|f]|], (as_num b) as [[y|g]|]; try reflexivity.
  - rewrite output_bind, float_of_int_quiet. by destruct (outcome _).
  - rewrite output_bind, float_of_int_quiet. by destruct (outcome _).
Qed.

Lemma py_iadd_quiet (total : spec_float) (x : num) : output (py_iadd total x) = [].
Proof.
  destruct x as [z|f]; [|reflexivity]. unfold py_iadd.
  rewrite output_bind, float_of_int_quiet. by destruct (outcome _).
Qed.

Lemma accumulate_quiet (total : spec_float) (p q : value) :
  output (amount ← py_mul p q; py_iadd total amount) = [].
Proof.
  rewrite output_bind, py_mul_quiet.
  destruct (outcome _); [apply py_iadd_quiet | reflexivity].
Qed.

Lemma invalid_quantity_spec (quantity : value) :
  invalid_quantity quantity
    = ret (negb (is_int_or_float quantity) || negative quantity).
Proof. by destruct quantity. Qed.

Lemma sale_checks_unhashable (idx : gmap string value) (total : spec_float)
    (product quantity : value) :
  hashable product = false ->
  sale_checks idx total product quantity = raise TypeError.
Proof. by destruct product. Qed.

Lemma sale_checks_unknown (idx : gmap string value) (total : spec_float)
    (product quantity : value) :
  hashable product = true ->
  is_key product idx = false ->
  sale_checks idx total product quantity
    = ([Printed (warn_not_found product)], Ok total).
Proof.
  intros Hh Hk. unfold sale_checks.
  destruct product; try discriminate; try reflexivity.
  simpl in Hk. unfold py_in. rewrite Hk. reflexivity.
Qed.

Lemma sale_checks_known (idx : gmap string value) (total : spec_float)
    (product quantity : value) :
  is_key product idx = true ->
  sale_checks idx total product quantity =
    if negb (is_int_or_float quantity) || negative quantity
    then ([Printed (warn_invalid_quantity product)], Ok total)
    else (amount ← py_mul (price_of idx product) quantity;
          py_iadd total amount).
Proof.
  intros Hk. destruct product; try discriminate. simpl in Hk.
  unfold sale_checks, py_in. rewrite Hk, bind_ret. simpl.
  rewrite invalid_quantity_spec, bind_ret.
  destruct (negb (is_int_or_float quantity) || negative quantity);
    [reflexivity|].
  apply bool_decide_eq_true in Hk as [p Hp].
  unfold py_getitem. simpl. rewrite Hp, bind_ret. reflexivity.
Qed.

(** Every case of the checks prints at most one line. *)
Lemma sale_checks_output (idx : gmap string value) (total : spec_float)
    (product quantity : value) :
  output (sale_checks idx total product quantity) =
    if negb (hashable product) then []
    else if negb (is_key product idx) then [Printed (warn_not_found product)]
    else if negb (is_int_or_float quantity) || negative quantity
         then [Printed (warn_invalid_quantity product)]
         else [].
Proof.
  destruct (hashable product) eqn:Hh; simpl.
  - destruct (is_key product idx) eqn:Hk; simpl.
    + rewrite (sale_checks_known _ _ _ _ Hk).
      destruct (negb (is_int_or_float quantity) || negative quantity);
        [reflexivity | apply accumulate_quiet].
    + by rewrite (sale_checks_unknown _ _ _ _ Hh Hk).
  - by rewrite (sale_checks_unhashable _ _ _ _ Hh).
Qed.

Lemma sale_body_once_dict (idx : gmap string value) (total : spec_float)
    (sale : value) :
  is_dict sale = true ->
  sale_body_once idx total sale
    = sale_checks idx total (field "Product" sale) (field "Quantity" sale).
Proof.
  destruct sale; try discriminate. intros _.
  unfold sale_body_once, py_get, field. by rewrite !bind_ret.
Qed.

Lemma sale_body_dict (cat : list value) (total : spec_float) (sale : value) :
  is_dict sale = true ->
  sale_body cat total sale
    = (idx ← convert_catalogue_to_dict cat;
       sale_checks idx total (field "Product" sale) (field "Quantity" sale)).
Proof.
  destruct sale; try discriminate. intros _.
  unfold sale_body, py_get, field. by rewrite !bind_ret.
Qed.



(** ** Booleans as numbers *)



(** ** Signs of rounded floats *)

Section Signs.
Variables p em : Z.

Lemma shr_1_nonneg (mrs : shr_record) :
  0 <= shr_m mrs -> 0 <= shr_m (shr_1 mrs).
Proof.
  destruct mrs as [[|[m|m|]|m] r s]; simpl; intros H; lia.
Qed.

Lemma iter_pos_invariant {A} (P : A -> Prop) (f : A -> A) :
  (forall x, P x -> P (f x)) ->
  forall n x, P x -> P (SpecFloat.iter_pos f n x).
Proof.
  intros Hf. induction n as [n IH|n IH|]; intros x Hx; simpl; auto.
Qed.

Lemma shr_nonneg (mrs : shr_record) (e n : Z) :
  0 <= shr_m mrs -> 0 <= shr_m (shr mrs e n).1.
Proof.
  intros H. destruct n as [|n|n]; simpl; try exact H.
  apply (iter_pos_invariant (fun mrs => 0 <= shr_m mrs)); [|exact H].
  apply shr_1_nonneg.
Qed.

Lemma shr_fexp_nonneg (m e : Z) (l : location) :
  0 <= m -> 0 <= shr_m (shr_fexp p em m e l).1.
Proof.
  intros H. unfold shr_fexp. apply shr_nonneg.
  destruct l as [|[ | | ]]; exact H.
Qed.

Lemma round_nearest_even_nonneg (m : Z) (l : location) :
  0 <= m -> 0 <= round_nearest_even m l.
Proof.
  intros H. destruct l as [|[ | | ]]; simpl; try lia.
  destruct (Z.even m); lia.
Qed.

Lemma binary_round_aux_sign (s : bool) (m e : Z) (l : location) :
  0 <= m -> has_sign s (binary_round_aux p em s m e l).
Proof.
  intros H. unfold binary_round_aux.
  pose proof (shr_fexp_nonneg m e l H) as H1.
  destruct (shr_fexp p em m e l) as [mrs' e']. simpl in H1.
  pose proof (shr_fexp_nonneg _ e' loc_Exact
                (round_nearest_even_nonneg _ (loc_of_shr_record mrs') H1)) as H2.
  destruct (shr_fexp p em _ e' loc_Exact) as [mrs'' e'']. simpl in H2.
  destruct (shr_m mrs'') as [|m''|m'']; [reflexivity | | lia].
  destruct (e'' <=? em - p); reflexivity.
Qed.

Lemma binary_round_sign (s : bool) (m : positive) (e : Z) :
  has_sign s (binary_round p em s m e).
Proof.
  unfold binary_round. destruct (shl_align _ _ _) as [mz ez].
  apply binary_round_aux_sign. lia.
Qed.
End Signs.





(** ** The total of the accepted sales *)

Lemma accumulate_spec (total : spec_float) (p q : value) (a b : num) :
  as_num p = Some a -> as_num q = Some b ->
  match a, b with
  | NInt x, NInt y => fits (x * y)
  | NInt x, NFloat _ => fits x
  | NFloat _, NInt y => fits y
  | NFloat _, NFloat _ => true
  end = true ->
  (amount ← py_mul p q; py_iadd total amount)
    = ret (fadd total (num_float (num_mul a b))).
Proof.
  intros Hp Hq Hfits. unfold py_mul. rewrite Hp, Hq.
  destruct a as [x|f], b as [y|g]; cbv beta iota.
  - rewrite bind_ret. unfold py_iadd.
    by rewrite (float_of_int_fits _ Hfits), bind_ret.
  - by rewrite (float_of_int_fits _ Hfits), !bind_ret.
  - by rewrite (float_of_int_fits _ Hfits), !bind_ret.
  - by rewrite bind_ret.
Qed.

Lemma index_of_numeric (cat : list value) : numeric_index (index_of cat).
Proof.
  intros t p (item & _ & He)%index_of_origin. by eapply entry_of_numeric.
Qed.

Lemma is_int_or_float_num (v : value) :
  is_int_or_float v = true -> exists a, as_num v = Some a.
Proof. destruct v; try discriminate; eauto. Qed.

Lemma is_key_price (idx : gmap string value) (product : value) :
  is_key product idx = true ->
  exists s, product = VStr s /\ idx !! s = Some (price_of idx product).
Proof.
  destruct product; try discriminate. simpl.
  intros [p Hp]%bool_decide_eq_true. exists s. by rewrite Hp.
Qed.

Lemma sale_body_once_spec (idx : gmap string value) (total : spec_float)
    (sale : value) :
  numeric_index idx ->
  sale_ok idx sale = true ->
  outcome (sale_body_once idx total sale)
    = Ok (if accepted idx sale then add_sale idx total sale else total).
Proof.
  intros Hnum Hok. unfold sale_ok in Hok.
  apply andb_prop in Hok as [[Hdict Hhash]%andb_prop Hfits].
  rewrite (sale_body_once_dict _ _ _ Hdict).
  unfold accepted in *. unfold add_sale, amount. unfold amount_fits in Hfits.
  set (product := field "Product" sale) in *.
  set (quantity := field "Quantity" sale) in *.
  destruct (is_key product idx) eqn:Hkey; simpl in *.
  - rewrite (sale_checks_known _ _ _ _ Hkey).
    destruct (is_int_or_float quantity) eqn:Hq; simpl in *; [|reflexivity].
    destruct (negative quantity); simpl in *; [reflexivity|].
    destruct (is_key_price _ _ Hkey) as (s & _ & Hp).
    destruct (is_int_or_float_num _ (Hnum _ _ Hp)) as [a Ha].
    destruct (is_int_or_float_num _ Hq) as [b Hb].
    rewrite Ha, Hb in *.
    rewrite (accumulate_spec total _ _ a b Ha Hb); [reflexivity|].
    by destruct a, b.
  - by rewrite (sale_checks_unknown _ _ _ _ Hhash Hkey).
Qed.



(** ** Runs that return *)

Lemma float_of_int_overflow (z : Z) :
  fits z = false -> float_of_int z = raise OverflowError.
Proof. unfold fits, float_of_int. by destruct (float_of_Z z). Qed.

Lemma accumulate_overflow (total : spec_float) (p q : value) (a b : num) :
  as_num p = Some a -> as_num q = Some b ->
  match a, b with
  | NInt x, NInt y => fits (x * y)
  | NInt x, NFloat _ => fits x
  | NFloat _, NInt y => fits y
  | NFloat _, NFloat _ => true
  end = false ->
  (amount ← py_mul p q; py_iadd total amount) = raise OverflowError.
Proof.
  intros Hp Hq Hfits. unfold py_mul. rewrite Hp, Hq.
  destruct a as [x|f], b as [y|g]; cbv beta iota; try discriminate.
  - rewrite bind_ret. unfold py_iadd.
    by rewrite (float_of_int_overflow _ Hfits).
  - by rewrite (float_of_int_overflow _ Hfits).
  - by rewrite (float_of_int_overflow _ Hfits).
Qed.







(** ** The sign of the total *)









(** ** The loader *)

(** C5, as amended: when the file is missing or its text is no JSON
    ([FileNotFoundError], [JSONDecodeError]), [load_json_file] prints one line
    with the file name and the cause and returns an empty dict. *)
Theorem load_json_file_failure (w : world) (filename msg : string) (e : exn) :
  read_file w filename = Failed e msg ->
  e = FileNotFoundError \/ e = JSONDecodeError ->
  load_json_file w filename
    = ([Printed [Lit "Error loading "; Interp (VStr filename); Lit ": ";
                 Lit msg]],
       Ok (VDict ∅)).
Proof.
  intros Hread He. unfold load_json_file. rewrite Hread.
  destruct He as [-> | ->]; reflexivity.
Qed.

Lemma load_json_file_failure_witness :
  load_json_file closed_world "sales.json"
    = ([Printed [Lit "Error loading "; Interp (VStr "sales.json"); Lit ": ";
                 Lit "Expecting value: line 1 column 1 (char 0)"]],
       Ok (VDict ∅)).
Proof.
  apply (load_json_file_failure closed_world "sales.json" _ JSONDecodeError).
  - reflexivity.
  - right. reflexivity.
Defined.

(** C5, as stated, fails: a file that exists and cannot be read makes [open]
    raise [PermissionError], which the handler does not catch. *)
Lemma load_json_file_unreadable :
  read_file closed_world "secret.json"
    = Failed PermissionError "[Errno 13] Permission denied" /\
  load_json_file closed_world "secret.json" = ([], Raise PermissionError).
Proof. split; reflexivity. Qed.

Lemma load_json_file_prints_only (w : world) (filename : string) :
  files_written (output (load_json_file w filename)) = [].
Proof.
  unfold load_json_file. destruct (read_file w filename) as [v|e msg];
    [reflexivity|]. by destruct (caught e).
Qed.

(** ** The entry point *)

Lemma files_written_app (out1 out2 : list event) :
  files_written (out1 ++ out2) = files_written out1 ++ files_written out2.
Proof. apply omap_app. Qed.

(** C6: when both files are loaded and one of the loaded values is no list
    (the empty dict of a failed load is none), [main] prints the format error
    after the loader's lines, exits with status 1 and writes no file. *)
Theorem main_invalid_format (w : world) (prog file1 file2 : string)
    (out1 out2 : list event) (v1 v2 : value) :
  argv w = [prog; file1; file2] ->
  load_json_file w file1 = (out1, Ok v1) ->
  load_json_file w file2 = (out2, Ok v2) ->
  is_list v1 && is_list v2 = false ->
  main w = (out1 ++ out2 ++ [Printed invalid_format], Raise (SystemExit 1)) /\
  exit_status (main w) = 1 /\
  files_written (output (main w)) = [].
Proof.
  intros Hargv H1 H2 Hshape.
  assert (Hmain : main w
            = (out1 ++ out2 ++ [Printed invalid_format], Raise (SystemExit 1))).
  { unfold main. rewrite Hargv, H1, bind_ok, H2. simpl.
    destruct v1, v2; try discriminate; reflexivity. }
  rewrite Hmain. split; [reflexivity|]. split; [reflexivity|].
  pose proof (load_json_file_prints_only w file1) as W1.
  pose proof (load_json_file_prints_only w file2) as W2.
  rewrite H1 in W1. rewrite H2 in W2. simpl in *.
  by rewrite !files_written_app, W1, W2.
Qed.

Lemma main_invalid_format_witness :
  main closed_world
    = ([Printed (error_loading "catalogue.json"
                   "[Errno 2] No such file or directory: 'catalogue.json'");
        Printed (error_loading "sales.json"
                   "Expecting value: line 1 column 1 (char 0)");
        Printed invalid_format], Raise (SystemExit 1)) /\
  exit_status (main closed_world) = 1 /\
  files_written (output (main closed_world)) = [].
Proof.
  apply (main_invalid_format closed_world
           "computeSales.py" "catalogue.json" "sales.json"
           [Printed (error_loading "catalogue.json"
                       "[Errno 2] No such file or directory: 'catalogue.json'")]
           [Printed (error_loading "sales.json"
                       "Expecting value: line 1 column 1 (char 0)")]
           (VDict ∅) (VDict ∅)); reflexivity.
Defined.

(** C7: with a catalogue file that holds a list and a sales file that holds
    the empty list, the total is 0.0, printed as 0.00; [main] prints the two
    lines of the report, writes the same two lines to SalesResults.txt (which
    it must be allowed to write) and returns, so the exit status is 0. *)
Theorem main_empty_sales (w : world) (prog file1 file2 : string)
    (cat : list value) :
  argv w = [prog; file1; file2] ->
  read_file w file1 = Loaded (VList cat) ->
  read_file w file2 = Loaded (VList []) ->
  writable w "SalesResults.txt" = true ->
  compute_total_sales cat [] = ([], Ok fzero) /\
  report_total fzero = [Lit "Total Sales Cost: $"; Lit "0.00"] /\
  main w
    = ([Printed (report_total fzero);
        Printed (report_time (fsub (time_end w) (time_start w)));
        Written "SalesResults.txt"
          [report_total fzero;
           report_time (fsub (time_end w) (time_start w))]],
       Ok tt) /\
  exit_status (main w) = 0.
Proof.
  intros Hargv H1 H2 Hw.
  assert (Hmain : main w
            = ([Printed (report_total fzero);
                Printed (report_time (fsub (time_end w) (time_start w)));
                Written "SalesResults.txt"
                  [report_total fzero;
                   report_time (fsub (time_end w) (time_start w))]],
               Ok tt)).
  { unfold main, load_json_file, save_results. rewrite Hargv, H1, H2, Hw.
    reflexivity. }
  rewrite Hmain. repeat split.
Qed.

Lemma main_empty_sales_witness :
  main quiet_world
    = ([Printed [Lit "Total Sales Cost: $"; Lit "0.00"];
        Printed [Lit "Execution Time: "; Lit "0.25"; Lit " seconds"];
        Written "SalesResults.txt"
          [[Lit "Total Sales Cost: $"; Lit "0.00"];
           [Lit "Execution Time: "; Lit "0.25"; Lit " seconds"]]],
       Ok tt) /\
  exit_status (main quiet_world) = 0.
Proof.
  destruct (main_empty_sales quiet_world
              "computeSales.py" "catalogue.json" "sales.json"
              [entry "A" (VInt 10); entry "B" (VInt 5)])
    as (_ & _ & Hmain & Hexit); try reflexivity.
  split; [exact Hmain | exact Hexit].
Defined.

(** The report format of the specification: 1234.5 is rendered 1,234.50. *)
Example format_2f_examples :
  format_2f true (S754_finite false 2469 (-1)) = "1,234.50" /\
  format_2f true (float_of_Z 1234567) = "1,234,567.00" /\
  format_2f false (S754_finite true 1 (-3)) = "-0.12" /\
  format_2f true fzero = "0.00".
Proof. vm_compute. repeat split. Qed.

(** ** More on the catalogue indexer *)

Lemma entry_warnings_filter (cat : list value) :
  entry_warnings cat
    = map (fun item => Printed (warn_invalid_entry item))
          (List.filter (fun item => negb (is_entry item)) cat).
Proof.
  unfold entry_warnings. induction cat as [|item cat IH]; [reflexivity|].
  simpl. rewrite IH. unfold is_entry. by destruct (entry_of item).
Qed.

(** Records, then an element that is no record. *)
Lemma convert_loop_prefix (pre rest : list value) (bad : value)
    (d : gmap string value) :
  forallb is_dict pre = true ->
  is_dict bad = false ->
  foldM convert_body (pre ++ bad :: rest) d
    = (entry_warnings pre, Raise AttributeError).
Proof.
  intros Hpre Hbad.
  rewrite foldM_app, (convert_loop_dicts _ _ Hpre), bind_ok, foldM_cons.
  rewrite (convert_body_not_dict _ _ Hbad). simpl. by rewrite app_nil_r.
Qed.

(** X1: the indexer stops at the first element that is no record: the
    warnings for the records before it are printed, [AttributeError] is
    raised, and what comes after it is never looked at. *)
Theorem convert_catalogue_to_dict_stops (pre rest : list value) (bad : value) :
  forallb is_dict pre = true ->
  is_dict bad = false ->
  convert_catalogue_to_dict (pre ++ bad :: rest)
    = (map (fun item => Printed (warn_invalid_entry item))
           (List.filter (fun item => negb (is_entry item)) pre),
       Raise AttributeError).
Proof.
  intros Hpre Hbad. unfold convert_catalogue_to_dict.
  rewrite (convert_loop_prefix _ _ _ _ Hpre Hbad). f_equal.
  apply entry_warnings_filter.
Qed.

Lemma convert_catalogue_to_dict_stops_witness :
  convert_catalogue_to_dict
    ([entry "A" (VInt 1); VDict ∅] ++ VStr "oops" :: [entry "B" (VInt 2)])
    = ([Printed (warn_invalid_entry (VDict ∅))], Raise AttributeError).
Proof.
  etransitivity.
  - apply (convert_catalogue_to_dict_stops
             [entry "A" (VInt 1); VDict ∅] [entry "B" (VInt 2)] (VStr "oops"));
      reflexivity.
  - vm_compute. reflexivity.
Defined.

(** X2: on a catalogue of records the indexer returns and prints exactly one
    warning for each record that is no valid entry, in input order, so the
    number of lines is the number of such records. *)
Theorem convert_catalogue_to_dict_warnings (cat : list value) :
  forallb is_dict cat = true ->
  output (convert_catalogue_to_dict cat)
    = map (fun item => Printed (warn_invalid_entry item))
          (List.filter (fun item => negb (is_entry item)) cat) /\
  length (output (convert_catalogue_to_dict cat))
    = length (List.filter (fun item => negb (is_entry item)) cat) /\
  exists idx, outcome (convert_catalogue_to_dict cat) = Ok idx.
Proof.
  intros Hcat. rewrite (convert_catalogue_to_dict_dicts _ Hcat). simpl.
  rewrite entry_warnings_filter, length_map. eauto.
Qed.

Lemma convert_catalogue_to_dict_warnings_witness :
  output (convert_catalogue_to_dict
            [VDict ∅; entry "A" (VInt 1); entry "B" (VStr "free")])
    = [Printed (warn_invalid_entry (VDict ∅));
       Printed (warn_invalid_entry (entry "B" (VStr "free")))].
Proof.
  etransitivity.
  - apply (convert_catalogue_to_dict_warnings
             [VDict ∅; entry "A" (VInt 1); entry "B" (VStr "free")]).
    reflexivity.
  - vm_compute. reflexivity.
Defined.

(** X3: every binding of a returned index is the title and the price of a
    valid entry of the catalogue, and the price is a number. *)
Theorem convert_catalogue_to_dict_sound (cat : list value)
    (idx : gmap string value) (t : string) (p : value) :
  outcome (convert_catalogue_to_dict cat) = Ok idx ->
  idx !! t = Some p ->
  is_int_or_float p = true /\
  exists item, item ∈ cat /\ field "title" item = VStr t /\
               field "price" item = p.
Proof.
  intros Hidx Hp. destruct (convert_catalogue_to_dict_ok _ _ Hidx) as [_ ->].
  destruct (index_of_origin _ _ _ Hp) as (item & Hin & He).
  split; [by eapply entry_of_numeric|].
  exists item. split; [exact Hin|].
  unfold entry_of in He. destruct (field "title" item); try discriminate.
  destruct (is_int_or_float (field "price" item)); [|discriminate].
  by injection He as -> ->.
Qed.

Lemma convert_catalogue_to_dict_sound_witness :
  is_int_or_float (VInt 7) = true /\
  exists item,
    item ∈ [entry "A" (VInt 10); entry "A" (VInt 7)] /\
    field "title" item = VStr "A" /\ field "price" item = VInt 7.
Proof.
  apply (convert_catalogue_to_dict_sound
           [entry "A" (VInt 10); entry "A" (VInt 7)]
           (<["A" := VInt 7]> ∅) "A" (VInt 7)); reflexivity.
Defined.

Lemma index_step_keeps (cat : list value) (d : gmap string value) (t : string) :
  is_Some (d !! t) -> is_Some (foldl index_step d cat !! t).
Proof.
  revert d. induction cat as [|item cat IH]; intros d Hd; [exact Hd|].
  simpl. apply IH. unfold index_step.
  destruct (entry_of item) as [[t' p']|]; [|exact Hd].
  destruct (decide (t' = t)) as [->|Hne].
  - rewrite lookup_insert_eq. eauto.
  - by rewrite lookup_insert_ne.
Qed.

(** X4: the title of every valid entry of the catalogue is a key of a returned
    index, so a sale of a catalogued product is never reported as not
    found. *)
Theorem convert_catalogue_to_dict_complete (cat : list value)
    (idx : gmap string value) (item : value) (t : string) (p : value) :
  outcome (convert_catalogue_to_dict cat) = Ok idx ->
  item ∈ cat ->
  entry_of item = Some (t, p) ->
  is_key (VStr t) idx = true.
Proof.
  intros Hidx Hin He. destruct (convert_catalogue_to_dict_ok _ _ Hidx) as [_ ->].
  simpl. apply bool_decide_eq_true.
  apply list_elem_of_split in Hin as (l1 & l2 & ->).
  unfold index_of. rewrite foldl_app. simpl. apply index_step_keeps.
  unfold index_step at 1. rewrite He, lookup_insert_eq. eauto.
Qed.

Lemma convert_catalogue_to_dict_complete_witness :
  is_key (VStr "A") (<["B" := VInt 5]> (<["A" := VInt 10]> ∅)) = true.
Proof.
  apply (convert_catalogue_to_dict_complete
           [entry "A" (VInt 10); entry "B" (VInt 5)] _
           (entry "A" (VInt 10)) "A" (VInt 10)).
  - reflexivity.
  - left.
  - reflexivity.
Defined.

Lemma index_step_union (cat : list value) (d : gmap string value) :
  foldl index_step d cat = index_of cat ∪ d.
Proof.
  unfold index_of. revert d.
  induction cat as [|item cat IH]; intros d; simpl.
  - by rewrite (left_id_L ∅ (∪)).
  - rewrite (IH (index_step d item)), (IH (index_step ∅ item)).
    unfold index_step. destruct (entry_of item) as [[t p]|].
    + rewrite insert_empty, insert_union_singleton_l.
      by rewrite (assoc_L (∪)).
    + by rewrite (right_id_L ∅ (∪)).
Qed.

(** X5: indexing two catalogues one after the other: when the indexer returns
    on each of them, it returns on their concatenation, prints the warnings of
    the first and then those of the second, and the index is the union of the
    two in which the second catalogue wins on a common title. *)
Theorem convert_catalogue_to_dict_app (cat1 cat2 : list value)
    (out1 out2 : list event) (idx1 idx2 : gmap string value) :
  convert_catalogue_to_dict cat1 = (out1, Ok idx1) ->
  convert_catalogue_to_dict cat2 = (out2, Ok idx2) ->
  convert_catalogue_to_dict (cat1 ++ cat2) = (out1 ++ out2, Ok (idx2 ∪ idx1)).
Proof.
  intros H1 H2.
  destruct (convert_catalogue_to_dict_ok cat1 idx1) as [Hd1 _];
    [by rewrite H1|].
  destruct (convert_catalogue_to_dict_ok cat2 idx2) as [Hd2 _];
    [by rewrite H2|].
  rewrite (convert_catalogue_to_dict_dicts _ Hd1) in H1.
  rewrite (convert_catalogue_to_dict_dicts _ Hd2) in H2.
  injection H1 as <- <-. injection H2 as <- <-.
  unfold convert_catalogue_to_dict.
  rewrite foldM_app, (convert_loop_dicts _ _ Hd1), bind_ok.
  rewrite (convert_loop_dicts _ _ Hd2). simpl.
  by rewrite index_step_union.
Qed.

Lemma convert_catalogue_to_dict_app_witness :
  convert_catalogue_to_dict
    ([entry "A" (VInt 10); VDict ∅] ++ [entry "A" (VInt 7); entry "B" (VInt 5)])
    = ([Printed (warn_invalid_entry (VDict ∅))] ++ [],
       Ok ((<["B" := VInt 5]> (<["A" := VInt 7]> ∅))
             ∪ (<["A" := VInt 10]> ∅))) /\
  ((<["B" := VInt 5]> (<["A" := VInt 7]> ∅)) ∪ (<["A" := VInt 10]> ∅)
     : gmap string value) !! "A" = Some (VInt 7).
Proof.
  split.
  - apply (convert_catalogue_to_dict_app
             [entry "A" (VInt 10); VDict ∅]
             [entry "A" (VInt 7); entry "B" (VInt 5)]); reflexivity.
  - reflexivity.
Defined.

Lemma convert_loop_shadowed (l2 l3 : list value) (e2 : value)
    (d : gmap string value) (t : string) (p1 p2 : value) :
  entry_of e2 = Some (t, p2) ->
  foldM convert_body (l2 ++ e2 :: l3) (<[t := p1]> d)
    = foldM convert_body (l2 ++ e2 :: l3) d.
Proof.
  intros He2. revert d. induction l2 as [|item l2 IH]; intros d.
  - simpl app. rewrite !foldM_cons.
    assert (Hdict : is_dict e2 = true)
      by (destruct e2; try discriminate He2; reflexivity).
    rewrite !(convert_body_dict _ _ Hdict). unfold index_step.
    rewrite He2, !bind_ok. simpl. by rewrite insert_insert_eq.
  - rewrite <- app_comm_cons, !foldM_cons.
    destruct (is_dict item) eqn:Hitem.
    + rewrite !(convert_body_dict _ _ Hitem), !bind_ok. unfold index_step.
      destruct (entry_of item) as [[t' p']|]; [|by rewrite IH].
      destruct (decide (t' = t)) as [->|Hne].
      * by rewrite insert_insert_eq.
      * by rewrite insert_insert_ne, IH.
    + by rewrite !(convert_body_not_dict _ _ Hitem).
Qed.

(** X6: an entry whose title comes again in a later valid entry leaves no
    trace: with or without it the indexer prints the same lines and returns
    the same index (or raises the same exception), and so
    [compute_total_sales] gives the same result on every sales list. *)
Theorem shadowed_entry_is_dead (l1 l2 l3 : list value) (e1 e2 : value)
    (t : string) (p1 p2 : value) :
  entry_of e1 = Some (t, p1) ->
  entry_of e2 = Some (t, p2) ->
  convert_catalogue_to_dict (l1 ++ e1 :: l2 ++ e2 :: l3)
    = convert_catalogue_to_dict (l1 ++ l2 ++ e2 :: l3) /\
  forall sales,
    compute_total_sales (l1 ++ e1 :: l2 ++ e2 :: l3) sales
      = compute_total_sales (l1 ++ l2 ++ e2 :: l3) sales.
Proof.
  intros He1 He2.
  assert (Hconv : convert_catalogue_to_dict (l1 ++ e1 :: l2 ++ e2 :: l3)
                  = convert_catalogue_to_dict (l1 ++ l2 ++ e2 :: l3)).
  { unfold convert_catalogue_to_dict. rewrite !foldM_app.
    apply bind_ext. intros d. rewrite foldM_cons.
    assert (Hdict : is_dict e1 = true)
      by (destruct e1; try discriminate He1; reflexivity).
    rewrite (convert_body_dict _ _ Hdict). unfold index_step.
    rewrite He1, bind_ok. simpl.
    rewrite (convert_loop_shadowed l2 l3 e2 d t p1 p2 He2).
    by destruct (foldM convert_body (l2 ++ e2 :: l3) d). }
  split; [exact Hconv|].
  intros sales. unfold compute_total_sales. apply foldM_ext.
  intros total sale. unfold sale_body. by rewrite Hconv.
Qed.

Lemma shadowed_entry_is_dead_witness :
  convert_catalogue_to_dict
    ([VDict ∅] ++ entry "A" (VInt 10) :: [entry "B" (VInt 5)]
       ++ entry "A" (VInt 7) :: [])
    = convert_catalogue_to_dict
        ([VDict ∅] ++ [entry "B" (VInt 5)] ++ entry "A" (VInt 7) :: []).
Proof.
  apply (shadowed_entry_is_dead
           [VDict ∅] [entry "B" (VInt 5)] [] (entry "A" (VInt 10))
           (entry "A" (VInt 7)) "A" (VInt 10) (VInt 7)); reflexivity.
Defined.

(** ** More on the aggregator *)

(** A turn of the loop on a sale it gets through, in full. *)
Lemma sale_body_turn (cat : list value) (out : list event)
    (idx : gmap string value) (total : spec_float) (sale : value) :
  convert_catalogue_to_dict cat = (out, Ok idx) ->
  sale_ok idx sale = true ->
  sale_body cat total sale
    = (out ++ sale_warning idx sale,
       Ok (if accepted idx sale then add_sale idx total sale else total)).
Proof.
  intros Hidx Hok.
  destruct (convert_catalogue_to_dict_ok cat idx) as [_ Heq];
    [by rewrite Hidx|].
  assert (Hnum : numeric_index idx) by (subst idx; apply index_of_numeric).
  destruct (sale_body_indexed cat out idx total sale Hidx) as [Hres Hout].
  rewrite (sale_body_once_spec _ _ _ Hnum Hok) in Hres.
  unfold sale_ok in Hok.
  apply andb_prop in Hok as [[Hdict Hhash]%andb_prop _].
  rewrite Hdict, (sale_body_once_dict _ _ _ Hdict), sale_checks_output in Hout.
  rewrite Hhash in Hout. simpl in Hout.
  assert (Hw : (if negb (is_key (field "Product" sale) idx)
                then [Printed (warn_not_found (field "Product" sale))]
                else if negb (is_int_or_float (field "Quantity" sale))
                          || negative (field "Quantity" sale)
                     then [Printed (warn_invalid_quantity (field "Product" sale))]
                     else []) = sale_warning idx sale).
  { unfold sale_warning, accepted.
    destruct (is_key (field "Product" sale) idx); simpl; [|reflexivity].
    destruct (is_int_or_float (field "Quantity" sale)); simpl; [|reflexivity].
    by destruct (negative (field "Quantity" sale)). }
  rewrite Hw in Hout.
  destruct (sale_body cat total sale) as [o r]. simpl in *. by subst.
Qed.











(** X10: an exception ends the loop: when the sales before a sale are
    processed and the turn of that sale raises, [compute_total_sales] raises
    the same exception, the lines printed so far stay on the console, the
    total is lost and no later sale is looked at. *)
Theorem compute_total_sales_aborts (cat before rest : list value) (bad : value)
    (out out' : list event) (total : spec_float) (e : exn) :
  compute_total_sales cat before = (out, Ok total) ->
  sale_body cat total bad = (out', Raise e) ->
  compute_total_sales cat (before ++ bad :: rest) = (out ++ out', Raise e).
Proof.
  intros Hbefore Hbad. unfold compute_total_sales in *.
  rewrite foldM_app, Hbefore, bind_ok, foldM_cons, Hbad. reflexivity.
Qed.

Lemma compute_total_sales_aborts_witness :
  compute_total_sales [entry "A" (VInt 10)]
    ([sale_of "C" (VInt 1); sale_of "A" (VInt 2)]
       ++ VInt 7 :: [sale_of "A" (VInt 1)])
    = ([Printed (warn_not_found (VStr "C"))] ++ [], Raise AttributeError).
Proof.
  apply (compute_total_sales_aborts
           [entry "A" (VInt 10)] [sale_of "C" (VInt 1); sale_of "A" (VInt 2)]
           [sale_of "A" (VInt 1)] (VInt 7) _ _ (float_of_Z 20)); reflexivity.
Defined.

Lemma float_of_Z_sign (z : Z) : 0 <= z -> has_sign false (float_of_Z z).
Proof.
  intros Hz. unfold float_of_Z, binary_normalize.
  destruct z as [|m|m]; [reflexivity | apply binary_round_sign | lia].
Qed.

Lemma fadd_fzero (x : spec_float) : has_sign false x -> fadd fzero x = x.
Proof. destruct x as [s|s| |s m e]; simpl; try done; by intros ->. Qed.

(** X11: one sale of a catalogued product, integer price and integer quantity,
    both not negative: the total is the product of the two, converted to a
    float once (no rounding happens before the conversion), and nothing is
    printed about the sale. *)
Theorem single_sale_total (cat : list value) (out : list event)
    (idx : gmap string value) (sale : value) (t : string) (p q : Z) :
  convert_catalogue_to_dict cat = (out, Ok idx) ->
  idx !! t = Some (VInt p) ->
  is_dict sale = true ->
  field "Product" sale = VStr t ->
  field "Quantity" sale = VInt q ->
  0 <= p -> 0 <= q ->
  fits (p * q) = true ->
  compute_total_sales cat [sale] = (out, Ok (float_of_Z (p * q))).
Proof.
  intros Hidx Hp Hdict Hprod Hq Hp0 Hq0 Hfits.
  assert (Hkey : is_key (field "Product" sale) idx = true)
    by (rewrite Hprod; simpl; apply bool_decide_eq_true; eauto).
  assert (Hacc : accepted idx sale = true).
  { unfold accepted, negative. rewrite Hkey, Hq. simpl.
    apply negb_true_iff, Z.ltb_ge, Hq0. }
  assert (Hamount : amount idx sale = NInt (p * q)).
  { unfold amount. rewrite Hprod, Hq. simpl. by rewrite Hp. }
  assert (Hok : sale_ok idx sale = true).
  { unfold sale_ok, amount_fits. rewrite Hdict, Hacc, Hprod, Hq. simpl.
    by rewrite Hp. }
  unfold compute_total_sales. rewrite foldM_cons.
  rewrite (sale_body_turn _ _ _ _ _ Hidx Hok), bind_ok.
  unfold sale_warning, add_sale. rewrite Hacc, Hamount.
  change (num_float (NInt (p * q))) with (float_of_Z (p * q)).
  rewrite fadd_fzero by (apply float_of_Z_sign; nia).
  cbn [foldM]. unfold output, outcome, ret. cbn [fst snd].
  by rewrite !app_nil_r.
Qed.

Lemma single_sale_total_witness :
  compute_total_sales [entry "A" (VInt 10)] [sale_of "A" (VInt 3)]
    = ([], Ok (float_of_Z (10 * 3))).
Proof.
  apply (single_sale_total
           [entry "A" (VInt 10)] [] (<["A" := VInt 10]> ∅)
           (sale_of "A" (VInt 3)) "A" 10 3); try reflexivity; lia.
Defined.

(** ** The exceptions of the aggregator *)

Lemma convert_loop_raises (cat : list value) (d : gmap string value) (e : exn) :
  outcome (foldM convert_body cat d) = Raise e -> e = AttributeError.
Proof.
  revert d. induction cat as [|item cat IH]; intros d; [discriminate|].
  rewrite foldM_cons, outcome_bind.
  destruct (is_dict item) eqn:Hitem.
  - rewrite (convert_body_dict _ _ Hitem). simpl. apply IH.
  - rewrite (convert_body_not_dict _ _ Hitem). simpl. congruence.
Qed.

Lemma accumulate_raises (total : spec_float) (p q : value) (a b : num)
    (e : exn) :
  as_num p = Some a -> as_num q = Some b ->
  outcome (amount ← py_mul p q; py_iadd total amount) = Raise e ->
  e = OverflowError.
Proof.
  intros Hp Hq.
  destruct (match a, b with
            | NInt x, NInt y => fits (x * y)
            | NInt x, NFloat _ => fits x
            | NFloat _, NInt y => fits y
            | NFloat _, NFloat _ => true
            end) eqn:Hfits.
  - by rewrite (accumulate_spec total _ _ a b Hp Hq Hfits).
  - rewrite (accumulate_overflow total _ _ a b Hp Hq Hfits). simpl. congruence.
Qed.

Lemma sale_checks_raises (idx : gmap string value) (total : spec_float)
    (product quantity : value) (e : exn) :
  numeric_index idx ->
  outcome (sale_checks idx total product quantity) = Raise e ->
  e = TypeError /\ hashable product = false \/ e = OverflowError.
Proof.
  intros Hnum.
  destruct (hashable product) eqn:Hhash;
    [|rewrite (sale_checks_unhashable _ _ _ _ Hhash); simpl;
      intros [= <-]; by left].
  destruct (is_key product idx) eqn:Hkey;
    [|by rewrite (sale_checks_unknown _ _ _ _ Hhash Hkey)].
  rewrite (sale_checks_known _ _ _ _ Hkey).
  destruct (is_int_or_float quantity) eqn:Hq; cbn [negb orb]; [|discriminate].
  destruct (negative quantity); [discriminate|].
  destruct (is_key_price _ _ Hkey) as (s & _ & Hp).
  destruct (is_int_or_float_num _ (Hnum _ _ Hp)) as [a Ha].
  destruct (is_int_or_float_num _ Hq) as [b Hb].
  intros Hraise. right. exact (accumulate_raises _ _ _ a b e Ha Hb Hraise).
Qed.

Lemma sale_body_raises (cat : list value) (total : spec_float) (sale : value)
    (e : exn) :
  outcome (sale_body cat total sale) = Raise e ->
  e = AttributeError \/ e = TypeError \/ e = OverflowError.
Proof.
  destruct (is_dict sale) eqn:Hdict;
    [|rewrite (sale_body_not_dict _ _ _ Hdict); simpl; intros [= <-]; by left].
  rewrite (sale_body_dict _ _ _ Hdict), outcome_bind.
  destruct (outcome (convert_catalogue_to_dict cat)) as [idx|e'] eqn:Hidx.
  - destruct (convert_catalogue_to_dict_ok _ _ Hidx) as [_ ->].
    intros [[-> _]| ->]%sale_checks_raises; auto using index_of_numeric.
  - intros [= <-]. left. by eapply convert_loop_raises.
Qed.

Lemma sale_loop_raises (cat sales : list value) (e : exn) :
  outcome (compute_total_sales cat sales) = Raise e ->
  e = AttributeError \/ e = TypeError \/ e = OverflowError.
Proof.
  unfold compute_total_sales. generalize fzero as total.
  induction sales as [|sale sales IH]; intros total; [discriminate|].
  rewrite foldM_cons, outcome_bind.
  destruct (outcome (sale_body cat total sale)) as [t1|e1] eqn:Hsale.
  - apply IH.
  - intros [= <-]. by eapply sale_body_raises.
Qed.



(** ** More on the entry point *)

Lemma prints_only_bind {A B} (m : M A) (k : A -> M B) :
  prints_only m -> (forall a, prints_only (k a)) -> prints_only (m ≫= k).
Proof.
  unfold prints_only. intros Hm Hk. rewrite output_bind.
  destruct (outcome m) as [a|e]; [|exact Hm].
  by rewrite files_written_app, Hm, Hk.
Qed.

Lemma prints_only_foldM {A S} (body : S -> A -> M S) (l : list A) (s : S) :
  (forall s x, prints_only (body s x)) -> prints_only (foldM body l s).
Proof.
  intros Hbody. revert s. induction l as [|x l IH]; intros s; [reflexivity|].
  rewrite foldM_cons. by apply prints_only_bind.
Qed.

Lemma convert_body_prints_only (d : gmap string value) (item : value) :
  prints_only (convert_body d item).
Proof.
  destruct (is_dict item) eqn:Hitem.
  - rewrite (convert_body_dict _ _ Hitem). unfold prints_only. simpl.
    by destruct (entry_of item).
  - by rewrite (convert_body_not_dict _ _ Hitem).
Qed.

Lemma sale_body_prints_only (cat : list value) (total : spec_float)
    (sale : value) :
  prints_only (sale_body cat total sale).
Proof.
  destruct (is_dict sale) eqn:Hdict;
    [|by rewrite (sale_body_not_dict _ _ _ Hdict)].
  rewrite (sale_body_dict _ _ _ Hdict). apply prints_only_bind.
  - apply prints_only_foldM, convert_body_prints_only.
  - intros idx. unfold prints_only. rewrite sale_checks_output.
    destruct (hashable _); simpl; [|reflexivity].
    destruct (is_key _ _); simpl; [|reflexivity].
    by destruct (negb _ || negative _).
Qed.

Lemma compute_total_sales_prints_only (cat sales : list value) :
  prints_only (compute_total_sales cat sales).
Proof. apply prints_only_foldM, sale_body_prints_only. Qed.

(** X13: with any number of arguments other than two, [main] prints the usage
    line and exits with status 1: no file is read and none is written. *)
Theorem main_usage (w : world) :
  length (argv w) <> 3%nat ->
  main w = ([Printed usage], Raise (SystemExit 1)) /\
  exit_status (main w) = 1.
Proof.
  intros Hlen. unfold exit_status, main.
  destruct (argv w) as [|a [|b [|c [|d l]]]]; try (split; reflexivity).
  by destruct Hlen.
Qed.

Lemma main_usage_witness :
  main {| argv := ["computeSales.py"; "catalogue.json"];
          read_file := read_file quiet_world;
          writable := writable quiet_world;
          time_start := fzero; time_end := fzero |}
    = ([Printed usage], Raise (SystemExit 1)).
Proof.
  apply (main_usage {| argv := ["computeSales.py"; "catalogue.json"];
                       read_file := read_file quiet_world;
                       writable := writable quiet_world;
                       time_start := fzero; time_end := fzero |}).
  simpl. lia.
Defined.

Lemma main_loaded (w : world) (prog file1 file2 : string)
    (cat sales : list value) :
  argv w = [prog; file1; file2] ->
  read_file w file1 = Loaded (VList cat) ->
  read_file w file2 = Loaded (VList sales) ->
  main w
    = (total_cost ← compute_total_sales cat sales;
       print (report_total total_cost);;
       print (report_time (fsub (time_end w) (time_start w)));;
       save_results w "SalesResults.txt" total_cost
         (fsub (time_end w) (time_start w))).
Proof.
  intros Hargv H1 H2. unfold main, load_json_file.
  rewrite Hargv, H1, H2, !bind_ret. reflexivity.
Qed.

(** X14: a run that goes through: two arguments, two files that hold lists, a
    total from [compute_total_sales] and a results file that can be written.
    [main] prints the warnings, then the two report lines, writes the very
    same two lines to SalesResults.txt and exits with status 0. *)
Theorem main_report (w : world) (prog file1 file2 : string)
    (cat sales : list value) (out : list event) (total : spec_float) :
  argv w = [prog; file1; file2] ->
  read_file w file1 = Loaded (VList cat) ->
  read_file w file2 = Loaded (VList sales) ->
  compute_total_sales cat sales = (out, Ok total) ->
  writable w "SalesResults.txt" = true ->
  main w
    = (out ++ [Printed (report_total total);
               Printed (report_time (fsub (time_end w) (time_start w)));
               Written "SalesResults.txt"
                 [report_total total;
                  report_time (fsub (time_end w) (time_start w))]],
       Ok tt) /\
  exit_status (main w) = 0.
Proof.
  intros Hargv H1 H2 Htotal Hw.
  rewrite (main_loaded w _ _ _ _ _ Hargv H1 H2), Htotal, bind_ok.
  unfold save_results. rewrite Hw. split; reflexivity.
Qed.

Lemma main_report_witness :
  main example_world
    = ([Printed (warn_not_found (VStr "C"));
        Printed (warn_invalid_quantity (VStr "B"));
        Printed [Lit "Total Sales Cost: $"; Lit "20.00"];
        Printed [Lit "Execution Time: "; Lit "0.25"; Lit " seconds"];
        Written "SalesResults.txt"
          [[Lit "Total Sales Cost: $"; Lit "20.00"];
           [Lit "Execution Time: "; Lit "0.25"; Lit " seconds"]]],
       Ok tt).
Proof.
  apply (main_report example_world
           "computeSales.py" "catalogue.json" "sales.json"
           [entry "A" (VInt 10); entry "B" (VInt 5)]
           [sale_of "A" (VInt 2); sale_of "C" (VInt 1); sale_of "B" (VInt (-1))]
           [Printed (warn_not_found (VStr "C"));
            Printed (warn_invalid_quantity (VStr "B"))]
           (float_of_Z 20)); reflexivity.
Defined.

(** X15: when the results file cannot be written, the report is on the console
    all the same, but [save_results] raises: no file is written and the exit
    status is 1. *)
Theorem main_unwritable (w : world) (prog file1 file2 : string)
    (cat sales : list value) (out : list event) (total : spec_float) :
  argv w = [prog; file1; file2] ->
  read_file w file1 = Loaded (VList cat) ->
  read_file w file2 = Loaded (VList sales) ->
  compute_total_sales cat sales = (out, Ok total) ->
  writable w "SalesResults.txt" = false ->
  main w
    = (out ++ [Printed (report_total total);
               Printed (report_time (fsub (time_end w) (time_start w)))],
       Raise PermissionError) /\
  exit_status (main w) = 1 /\
  files_written (output (main w)) = [].
Proof.
  intros Hargv H1 H2 Htotal Hw.
  rewrite (main_loaded w _ _ _ _ _ Hargv H1 H2), Htotal, bind_ok.
  unfold save_results. rewrite Hw. split; [reflexivity|]. split; [reflexivity|].
  pose proof (compute_total_sales_prints_only cat sales) as Hp.
  unfold prints_only in Hp. rewrite Htotal in Hp. simpl in *.
  by rewrite files_written_app, Hp.
Qed.

Lemma main_unwritable_witness :
  main {| argv := argv example_world; read_file := read_file example_world;
          writable := fun _ => false;
          time_start := time_start example_world;
          time_end := time_end example_world |}
    = ([Printed (warn_not_found (VStr "C"));
        Printed (warn_invalid_quantity (VStr "B"));
        Printed [Lit "Total Sales Cost: $"; Lit "20.00"];
        Printed [Lit "Execution Time: "; Lit "0.25"; Lit " seconds"]],
       Raise PermissionError).
Proof.
  apply (main_unwritable
           {| argv := argv example_world; read_file := read_file example_world;
              writable := fun _ => false;
              time_start := time_start example_world;
              time_end := time_end example_world |}
           "computeSales.py" "catalogue.json" "sales.json"
           [entry "A" (VInt 10); entry "B" (VInt 5)]
           [sale_of "A" (VInt 2); sale_of "C" (VInt 1); sale_of "B" (VInt (-1))]
           [Printed (warn_not_found (VStr "C"));
            Printed (warn_invalid_quantity (VStr "B"))]
           (float_of_Z 20)); reflexivity.
Defined.

(** X16: when [compute_total_sales] raises, [main] ends there: the warnings
    printed so far are all there is on the console, no report line is
    printed, no file is written, and the exit status is 1. *)
Theorem main_aggregator_raises (w : world) (prog file1 file2 : string)
    (cat sales : list value) (out : list event) (e : exn) :
  argv w = [prog; file1; file2] ->
  read_file w file1 = Loaded (VList cat) ->
  read_file w file2 = Loaded (VList sales) ->
  compute_total_sales cat sales = (out, Raise e) ->
  main w = (out, Raise e) /\
  exit_status (main w) = 1 /\
  files_written (output (main w)) = [].
Proof.
  intros Hargv H1 H2 Htotal.
  rewrite (main_loaded w _ _ _ _ _ Hargv H1 H2), Htotal.
  split; [reflexivity|].
  pose proof (sale_loop_raises cat sales e) as He.
  pose proof (compute_total_sales_prints_only cat sales) as Hp.
  unfold prints_only in Hp. rewrite Htotal in He, Hp. simpl in *.
  split; [|exact Hp].
  unfold exit_status. simpl.
  by destruct (He eq_refl) as [->|[->| ->]].
Qed.

Lemma main_aggregator_raises_witness :
  main {| argv := argv example_world;
          read_file := fun path =>
            if String.eqb path "sales.json"
            then Loaded (VList [sale_of "C" (VInt 1); VStr "A"])
            else read_file example_world path;
          writable := fun _ => true;
          time_start := fzero; time_end := fzero |}
    = ([Printed (warn_not_found (VStr "C"))], Raise AttributeError).
Proof.
  apply (main_aggregator_raises
           {| argv := argv example_world;
              read_file := fun path =>
                if String.eqb path "sales.json"
                then Loaded (VList [sale_of "C" (VInt 1); VStr "A"])
                else read_file example_world path;
              writable := fun _ => true;
              time_start := fzero; time_end := fzero |}
           "computeSales.py" "catalogue.json" "sales.json"
           [entry "A" (VInt 10); entry "B" (VInt 5)]
           [sale_of "C" (VInt 1); VStr "A"]); reflexivity.
Defined.

(** X17: an exception of the loader that its handler does not catch ends
    [main] on the spot: for the first file nothing is printed and the second
    file is not read; for the second file only what the first load printed is
    on the console. In both cases there is no format error and no report. *)
Theorem main_loader_raises (w : world) (prog file1 file2 msg : string)
    (e : exn) :
  argv w = [prog; file1; file2] ->
  caught e = false ->
  (read_file w file1 = Failed e msg -> main w = ([], Raise e)) /\
  (forall out1 v1,
     load_json_file w file1 = (out1, Ok v1) ->
     read_file w file2 = Failed e msg ->
     main w = (out1, Raise e)).
Proof.
  intros Hargv He. split.
  - intros H1. unfold main, load_json_file. rewrite Hargv, H1, He.
    reflexivity.
  - intros out1 v1 H1 H2. unfold main. rewrite Hargv, H1, bind_ok.
    unfold load_json_file. rewrite H2, He. simpl. by rewrite app_nil_r.
Qed.

Lemma main_loader_raises_witness :
  main {| argv := ["computeSales.py"; "secret.json"; "sales.json"];
          read_file := read_file closed_world;
          writable := fun _ => true;
          time_start := fzero; time_end := fzero |}
    = ([], Raise PermissionError) /\
  main {| argv := ["computeSales.py"; "catalogue.json"; "secret.json"];
          read_file := read_file closed_world;
          writable := fun _ => true;
          time_start := fzero; time_end := fzero |}
    = ([Printed (error_loading "catalogue.json"
                   "[Errno 2] No such file or directory: 'catalogue.json'")],
       Raise PermissionError).
Proof.
  split.
  - apply (main_loader_raises
             {| argv := ["computeSales.py"; "secret.json"; "sales.json"];
                read_file := read_file closed_world;
                writable := fun _ => true;
                time_start := fzero; time_end := fzero |}
             "computeSales.py" "secret.json" "sales.json"
             "[Errno 13] Permission denied" PermissionError); reflexivity.
  - apply (proj2 (main_loader_raises
                    {| argv := ["computeSales.py"; "catalogue.json";
                                "secret.json"];
                       read_file := read_file closed_world;
                       writable := fun _ => true;
                       time_start := fzero; time_end := fzero |}
                    "computeSales.py" "catalogue.json" "secret.json"
                    "[Errno 13] Permission denied" PermissionError
                    eq_refl eq_refl) _ (VDict ∅)); reflexivity.
Defined.

(** X18: in every run [main] either returns, and then it has written exactly
    one file, SalesResults.txt, holding the total line and the time line; or
    it ends with an exception, and then it has written no file at all. *)
Theorem main_report_file (w : world) :
  (outcome (main w) = Ok tt /\
   exists total,
     files_written (output (main w))
       = [("SalesResults.txt",
           [report_total total;
            report_time (fsub (time_end w) (time_start w))])]) \/
  (exists e, outcome (main w) = Raise e /\
             files_written (output (main w)) = []).
Proof.
  unfold main.
  destruct (argv w) as [|prog [|file1 [|file2 [|x l]]]];
    try (right; eexists; split; reflexivity).
  pose proof (load_json_file_prints_only w file1) as P1.
  pose proof (load_json_file_prints_only w file2) as P2.
  destruct (load_json_file w file1) as [out1 [v1|e1]];
    [|right; eexists; split; [reflexivity | exact P1]].
  destruct (load_json_file w file2) as [out2 [v2|e2]]; simpl in P1, P2;
    [|right; eexists; split; [reflexivity|]; simpl;
      by rewrite files_written_app, P1, P2].
  destruct v1 as [| | | | |cat|];
    try (right; eexists; split; [reflexivity|]; simpl;
         by rewrite !files_written_app, P1, P2).
  destruct v2 as [| | | | |sales|];
    try (right; eexists; split; [reflexivity|]; simpl;
         by rewrite !files_written_app, P1, P2).
  pose proof (compute_total_sales_prints_only cat sales) as Pc.
  unfold prints_only in Pc. rewrite !bind_ok.
  destruct (compute_total_sales cat sales) as [out [total|e]]; simpl in Pc.
  - rewrite bind_ok. unfold save_results.
    destruct (writable w "SalesResults.txt").
    + left. split; [reflexivity|]. exists total. simpl.
      by rewrite !files_written_app, P1, P2, Pc.
    + right. eexists. split; [reflexivity|]. simpl.
      by rewrite !files_written_app, P1, P2, Pc.
  - right. eexists. split; [reflexivity|]. simpl.
    by rewrite !files_written_app, P1, P2, Pc.
Qed.

(** ** Missing fields and an empty catalogue *)



(** X20: a catalogue record without a title or without a price is warned about
    and skipped: the index is the one of the records before it. *)
Theorem entry_missing_field (cat : list value) (out : list event)
    (idx : gmap string value) (item : gmap string value) :
  convert_catalogue_to_dict cat = (out, Ok idx) ->
  item !! "title" = None \/ item !! "price" = None ->
  convert_catalogue_to_dict (cat ++ [VDict item])
    = (out ++ [Printed (warn_invalid_entry (VDict item))], Ok idx).
Proof.
  intros Hidx Hmiss. unfold convert_catalogue_to_dict in *.
  rewrite foldM_app, Hidx, bind_ok, foldM_cons.
  rewrite (convert_body_dict idx (VDict item) eq_refl).
  unfold index_step, entry_of, field.
  destruct Hmiss as [-> | Hprice]; [reflexivity|].
  rewrite Hprice. by destruct (default VNone (item !! "title")).
Qed.

Lemma entry_missing_field_witness :
  convert_catalogue_to_dict
    ([entry "A" (VInt 10)] ++ [VDict (<["title" := VStr "B"]> ∅)])
    = ([] ++ [Printed (warn_invalid_entry (VDict (<["title" := VStr "B"]> ∅)))],
       Ok (<["A" := VInt 10]> ∅)).
Proof.
  apply (entry_missing_field [entry "A" (VInt 10)] [] (<["A" := VInt 10]> ∅)
           (<["title" := VStr "B"]> ∅)).
  - reflexivity.
  - right. reflexivity.
Defined.


